(** * terraform-provider-routeros: the ip/service resource and the SSH importer

    A shallow embedding of [routeros/resource_ip_service.go] and
    [tools/importer/ssh.go].  Go maps are stdpp [gmap]s, Go's nilable
    [error] is [option error], a [panic] is an explicit outcome, and the
    device behind a client interface is a type class over an abstract
    device state that every call threads through. *)

From Stdlib Require Import ZArith String Ascii List.
From stdpp Require Import base option list strings gmap.

Local Open Scope string_scope.

(** A non-nil Go [error], identified with its [Error()] text.  A Go value of
    type [error] that may be [nil] is an [option error]. *)
Definition error := string.

(* ===================================================================== *)
(** * tools/importer/ssh.go                                                *)
(* ===================================================================== *)
Module Importer.

(** The part of [*ssh.Client] that [SshConnection] uses.  [W] is the state
    of the remote end together with the connection; every call may change
    it.  [SessionRun cmd] gives what the command wrote to [session.Stdout]
    and the error of [session.Run]. *)
Class SshClient (W : Type) := {
  NewSession : W -> option error * W;
  SessionRun : string -> W -> (string * option error) * W;
  SessionClose : W -> W
}.

Section ssh.
Context {W : Type} {ssh : SshClient W}.

(** [reId.FindStringSubmatch]: [reId] is a package-level regular
    expression declared outside ssh.go.  The result is [[]] (Go's nil)
    when the output does not match, else the whole match followed by
    the captured groups. *)
Variable FindStringSubmatch : string -> list string.

(** [func (c *SshConnection) Run(cmd string) (string, error)] *)
Definition Run (cmd : string) (w : W) : (string * option error) * W :=
  match NewSession w with
  | (Some err, w1) => (("", Some ("Failed to create session, " +:+ err)), w1)
  | (None, w1) =>
      let '((b, rc), w2) := SessionRun cmd w1 in
      (* defer session.Close() *)
      let w3 := SessionClose w2 in
      match rc with
      | Some err => (("", Some ("Failed to run, " +:+ err)), w3)
      | None => ((b, None), w3)
      end
  end.

(** [func GetMikrotikConfig(conn *SshConnection) (string, error)] *)
Definition GetMikrotikConfig (w : W) : (string * option error) * W :=
  Run "/export terse" w.

(** [fmt.Sprintf(":put [%v get [ find %v ]]", path, filter)] *)
Definition findCommand (path filter : string) : string :=
  ":put [" +:+ path +:+ " get [ find " +:+ filter +:+ " ]]".

(** The state of the loop of [GetResourceId]: the variable [id], the
    remote end and the lines given to [log.Error]. *)
Record loopState := LoopState {
  ls_id : string;
  ls_world : W;
  ls_log : list string
}.

(** One iteration of [for _, filter := range requiredFields]. *)
Definition iteration (path : string) (st : loopState) (filter : string)
  : loopState :=
  let '((res, err), w1) := Run (findCommand path filter) (ls_world st) in
  match err with
  | Some _ => LoopState (ls_id st) w1 (ls_log st)                (* continue *)
  | None =>
      let ss := FindStringSubmatch res in
      if decide (length ss ≠ 2) then
        LoopState (ls_id st) w1 (ls_log st ++ ["Id not found"])%list  (* continue *)
      else
        LoopState (default "" (ss !! 1%nat)) w1 (ls_log st)      (* id = ss[1] *)
  end.

(** [func GetResourceId(conn, path, requiredFields) string], with the
    remote end and the log it leaves behind. *)
Definition GetResourceId (w : W) (path : string) (requiredFields : list string)
  : string * W * list string :=
  let st := fold_left (iteration path) requiredFields (LoopState "" w []) in
  if decide (ls_id st = "") then
    ("?", ls_world st, (ls_log st ++ ["Id not found"])%list)
  else
    (ls_id st, ls_world st, ls_log st).

(** ** The resolver as the design describes it

    What a single candidate field yields, on the remote end as it is when
    its turn comes: an identifier when the command succeeds and its
    output matches the pattern, nothing otherwise. *)
Definition attempt (path filter : string) (w : W) : option string * W :=
  let '((res, err), w1) := Run (findCommand path filter) w in
  match err, FindStringSubmatch res with
  | None, [_; id] => (Some id, w1)
  | _, _ => (None, w1)
  end.

(** The outcomes of all candidates, in iteration order. *)
Fixpoint attempts (path : string) (fields : list string) (w : W)
  : list (option string) :=
  match fields with
  | [] => []
  | f :: fs => let '(o, w1) := attempt path f w in o :: attempts path fs w1
  end.

(** The identifiers of the candidates that succeeded, in order. *)
Definition successes (path : string) (fields : list string) (w : W)
  : list string :=
  omap id (attempts path fields w).

End ssh.
End Importer.

(* ===================================================================== *)
(** * The Version Comparator                                               *)
(* ===================================================================== *)
Module Version.

Definition digit (c : ascii) : option Z :=
  let n := Z.of_N (N_of_ascii c) in
  if decide (48 ≤ n ≤ 57)%Z then Some (n - 48)%Z else None.

(** A non-empty run of decimal digits, most significant first. *)
Fixpoint number (acc : Z) (s : string) : option Z :=
  match s with
  | EmptyString => Some acc
  | String c s' =>
      match digit c with
      | Some v => number (acc * 10 + v)%Z s'
      | None => None
      end
  end.

Definition segment (s : string) : option Z :=
  match s with
  | EmptyString => None
  | _ => number 0 s
  end.

(** The segments of a dotted string: ["7.19"] gives [["7"; "19"]]. *)
Fixpoint split (cur : string) (s : string) : list string :=
  match s with
  | EmptyString => [cur]
  | String c s' =>
      if decide (c = "."%char) then cur :: split "" s'
      else split (cur +:+ String c "") s'
  end.

(** Modelled from the spec: [parseRouterOSVersion] is declared in another
    file of the package.  The design gives it the contract
    [parseVersion(versionString) -> integer, error]: a dotted numeric
    string ("7.19") becomes an integer ordered like the releases, the
    patch segment folded into the lower-order digits, and a string
    outside that grammar is a ParseError.  The weight of a segment is
    the one of the comment in [resRead], "ROS 7.19 => 463616":
    major * 2^16 + minor * 2^8 + patch. *)
Definition parseVersion (versionString : string) : Z + error :=
  match mapM segment (split "" versionString) with
  | Some [major; minor] => inl (major * 65536 + minor * 256)%Z
  | Some [major; minor; patch] => inl (major * 65536 + minor * 256 + patch)%Z
  | _ => inr ("ParseError: " +:+ versionString)
  end.

End Version.

(* ===================================================================== *)
(** * routeros/resource_ip_service.go                                      *)
(* ===================================================================== *)

(** ** The SDK types the file is written against *)

(** The values of Go's [any] that occur in declared records and filters. *)
Inductive any := VNil | VString (s : string) | VInt (n : Z) | VBool (b : bool).

(** A failed operation of the Go runtime or a call of [panic]. *)
Inductive outcome (A : Type) :=
| Ret (a : A)
| Panic (e : error).
Arguments Ret {A} a.
Arguments Panic {A} e.

(** Package [diag] of the plugin SDK. *)
Module diag.
Inductive Severity := Error | Warning.

Record Diagnostic := { severity : Severity; Summary : string }.

Definition Diagnostics := list Diagnostic.

(** [diag.FromErr]: nil for a nil error, else one diagnostic of severity
    [Error] that carries the text of the error. *)
Definition FromErr (err : option error) : Diagnostics :=
  match err with
  | None => []
  | Some e => [ {| severity := Error; Summary := e |} ]
  end.

(** [Diagnostics.HasError]: the host fails the operation when it holds. *)
Definition HasError (ds : Diagnostics) : bool :=
  existsb (fun x => match severity x with Error => true | Warning => false end) ds.
End diag.

(** Package [schema] of the plugin SDK. *)
Module schema.
Inductive ValueType := TypeBool | TypeInt | TypeString.

(** [*schema.ResourceData]: the stored identifier and the declared
    values.  The host checks a record against the descriptor set before
    it calls the engine, so a required field is present in [rd_values]
    with the kind its descriptor declares. *)
Record ResourceData := { rd_id : string; rd_values : gmap string any }.

Definition SetId (v : string) (d : ResourceData) : ResourceData :=
  {| rd_id := v; rd_values := rd_values d |}.

Definition Get (d : ResourceData) (key : string) : any :=
  default VNil (rd_values d !! key).

(** [*schema.Schema], without the description and the validator, which
    the host consults before any operation of the resource runs. *)
Record Schema := {
  Type_ : ValueType;
  Optional : bool;
  Required : bool;
  Computed : bool;
  Default : any;
  DiffSuppressFunc : option (string -> string -> string -> ResourceData -> bool)
}.
End schema.
Import schema.

(** ** The types of package routeros the file uses *)

(** A device item, [MikrotikItem]: attribute name to string value. *)
Abbreviation MikrotikItem := (gmap string string).

Inductive IdType := Id | Name.

(** Modelled from the spec: [MikrotikItem.GetID] is declared in another
    file.  A device item always includes the identifier key, [.id] by
    convention; [Name] selects the [name] attribute instead.  An item
    without the key gives the empty string. *)
Definition GetID (item : MikrotikItem) (t : IdType) : string :=
  default "" (item !! match t with Id => ".id" | Name => "name" end).

(** The transports; the file only compares against [TransportREST]. *)
Inductive TransportType := TransportAPI | TransportREST.

#[global] Instance TransportType_eq_dec : EqDecision TransportType.
Proof. solve_decision. Defined.

(** Modelled from the spec: the actions of a request, [get], [post],
    [set] and [delete]; the file only uses [crudPost]. *)
Inductive crudMethod := crudGet | crudPost | crudSet | crudDelete.

(** [URL], of which the file fills [Path] only. *)
Record URL := { Path : string }.

(** The second result of [TerraformResourceDataToMikrotik]; the file reads
    its [Path]. *)
Record MikrotikItemMetadata := { meta_Path : string }.

(** What reached the device, in order: the instrumentation of the model. *)
Inductive request :=
| ReqRead (query : list string) (path : string)
| ReqSend (method : crudMethod) (url : URL) (item : MikrotikItem).

Definition isWrite (r : request) : bool :=
  match r with ReqSend _ _ _ => true | ReqRead _ _ => false end.

(** Interface [Client], over the state [Dev] of the device and the
    connection to it. *)
Class Client (Dev : Type) := {
  GetTransport : Dev -> TransportType;
  SendRequest : crudMethod -> URL -> MikrotikItem -> Dev -> option error * Dev
}.

(** ** The state of one operation and its monad *)
Section monad.
Context {Dev : Type}.

(** The record [d] the host passes, the device behind [m], and the
    requests issued so far. *)
Record state := { d : ResourceData; dev : Dev; trace : list request }.

Definition M (A : Type) : Type := state -> outcome A * state.

Definition ret {A} (a : A) : M A := fun st => (Ret a, st).

Definition panic {A} (e : error) : M A := fun st => (Panic e, st).

Definition bind {A B} (m : M A) (f : A -> M B) : M B :=
  fun st =>
    match m st with
    | (Ret a, st') => f a st'
    | (Panic e, st') => (Panic e, st')
    end.

Definition getData : M ResourceData := fun st => (Ret (d st), st).

Definition setData (f : ResourceData -> ResourceData) : M unit :=
  fun st => (Ret tt, {| d := f (d st); dev := dev st; trace := trace st |}).

Definition getDevice : M Dev := fun st => (Ret (dev st), st).

(** A call that reaches the device: it is logged and leaves the device
    in a new state. *)
Definition call {A} (r : request) (f : Dev -> A * Dev) : M A :=
  fun st =>
    let '(a, dev') := f (dev st) in
    (Ret a, {| d := d st; dev := dev'; trace := (trace st ++ [r])%list |}).
End monad.
Arguments state Dev : clear implicits.
Arguments M Dev A : clear implicits.

#[global] Instance M_ret {Dev} : MRet (M Dev) := @ret Dev.
#[global] Instance M_bind {Dev} : MBind (M Dev) := fun A B f m => bind m f.

(** The type assertion [v.(string)]. *)
Definition assertString {Dev} (v : any) : M Dev string :=
  match v with
  | VString s => ret s
  | _ => panic "interface conversion: interface {} is not string"
  end.

(** ** What the file takes from the rest of package routeros

    The constants, descriptors and helpers that resource_ip_service.go
    names and other files of the package declare. *)
Class Package (Dev : Type) := {
  MetaResourcePath : string;
  MetaId : string;
  KeyDisabled : string;
  KeyDynamic : string;
  KeyInvalid : string;
  KeyVrf : string;
  PropId : IdType -> Schema;
  PropDisabledRw : Schema;
  PropDynamicRo : Schema;
  PropInvalidRo : Schema;
  PropVrfRw : Schema;
  AlwaysPresentNotUserProvided : string -> string -> string -> ResourceData -> bool;
  (** the package-level variable that holds the version the device reported *)
  RouterOSVersion : string;
  parseRouterOSVersion : string -> Z + error;
  buildReadFilter : gmap string any -> list string;
  (** [ReadItemsFiltered(filter, path, client)]: the items or an error *)
  ReadItemsFiltered : list string -> string -> Dev -> (list MikrotikItem + error) * Dev;
  errorNoLongerExists : error;
  (** Modelled from the spec: the translation of a device item into the
      declared record writes field values and leaves the stored
      identifier to its caller, so it is given the values and returns
      them with its diagnostics. *)
  MikrotikResourceDataToTerraform :
    MikrotikItem -> gmap string Schema -> gmap string any ->
    diag.Diagnostics * gmap string any;
  TerraformResourceDataToMikrotik :
    gmap string Schema -> ResourceData -> MikrotikItem * MikrotikItemMetadata;
  DefaultSystemDelete : gmap string Schema -> M Dev diag.Diagnostics;
  ImportStateCustomContext : gmap string Schema -> M Dev (list ResourceData)
}.

(** Modelled from the spec: [PropResourcePath] is declared in another
    file.  It builds the reserved descriptor of the device-side path, a
    string descriptor that holds the path as its default. *)
Definition PropResourcePath (p : string) : Schema :=
  {| Type_ := TypeString; Optional := true; Required := false;
     Computed := false; Default := VString p; DiffSuppressFunc := None |}.

(** [*schema.Resource] *)
Record Resource (Dev : Type) := {
  CreateContext : M Dev diag.Diagnostics;
  ReadContext : M Dev diag.Diagnostics;
  UpdateContext : M Dev diag.Diagnostics;
  DeleteContext : M Dev diag.Diagnostics;
  Importer : M Dev (list ResourceData);
  Schema_ : gmap string Schema
}.
Arguments CreateContext {Dev} _.
Arguments ReadContext {Dev} _.
Arguments UpdateContext {Dev} _.
Arguments DeleteContext {Dev} _.
Arguments Importer {Dev} _.
Arguments Schema_ {Dev} _.

(** ** [ResourceIpService] *)
Section ResourceIpService.
Context {Dev : Type} {client : Client Dev} {pkg : Package Dev}.

(** The [DiffSuppressFunc] of ["address"]. *)
Definition addressDiffSuppress (k oldValue newValue : string)
  (d : ResourceData) : bool :=
  if (oldValue =? "") && (newValue =? "0.0.0.0/0") then false
  else oldValue =? newValue.

Definition stringField (optional required computed : bool) (default : any)
  (suppress : option (string -> string -> string -> ResourceData -> bool))
  : Schema :=
  {| Type_ := TypeString; Optional := optional; Required := required;
     Computed := computed; Default := default; DiffSuppressFunc := suppress |}.

Definition intField (optional required : bool)
  (suppress : option (string -> string -> string -> ResourceData -> bool))
  : Schema :=
  {| Type_ := TypeInt; Optional := optional; Required := required;
     Computed := false; Default := VNil; DiffSuppressFunc := suppress |}.

(** The map literal [resSchema]; its keys are constants, which the
    compiler requires to be distinct. *)
Definition resSchema : gmap string Schema :=
  list_to_map [
    (MetaResourcePath, PropResourcePath "/ip/service");
    (MetaId, PropId Name);
    ("address", stringField true false false (VString "") (Some addressDiffSuppress));
    ("certificate", stringField true false false VNil (Some AlwaysPresentNotUserProvided));
    (KeyDisabled, PropDisabledRw);
    (KeyDynamic, PropDynamicRo);
    (KeyInvalid, PropInvalidRo);
    ("max_sessions", intField true false (Some AlwaysPresentNotUserProvided));
    ("name", stringField false false true VNil None);
    ("numbers", stringField false true false VNil None);
    ("port", intField false true None);
    ("proto", stringField false false true VNil None);
    ("tls_version", stringField true false false VNil (Some AlwaysPresentNotUserProvided));
    (KeyVrf, PropVrfRw)
  ].

(** [resSchema[MetaResourcePath].Default.(string)] *)
Definition schemaPath : M Dev string :=
  match resSchema !! MetaResourcePath with
  | Some s => assertString (Default s)
  | None => panic "invalid memory address or nil pointer dereference"
  end.

(** [if ver >= 463616 { filter["dynamic"] = "false" }] *)
Definition versionGate (ver : Z) (filter : gmap string any) : gmap string any :=
  if decide (463616 ≤ ver)%Z then <["dynamic" := VString "false"]> filter
  else filter.

(** [resRead].  [ColorizedDebug] writes to the debug log only, which is
    not part of the state. *)
Definition resRead : M Dev diag.Diagnostics :=
  path ← schemaPath;
  d ← getData;
  let filter : gmap string any := {[ "name" := Get d "numbers" ]} in
  ver ← match parseRouterOSVersion RouterOSVersion with
        | inl ver => mret ver
        | inr err => panic err
        end;
  let filter := versionGate ver filter in
  let query := buildReadFilter filter in
  res ← call (ReqRead query path) (ReadItemsFiltered query path);
  match res with
  | inr err => mret (diag.FromErr (Some err))
  | inl [] =>
      (* Resource not found. *)
      setData (SetId "");;
      mret (diag.FromErr (Some errorNoLongerExists))
  | inl (item :: _) =>
      setData (SetId (GetID item Id));;
      d ← getData;
      let '(diags, values) :=
        MikrotikResourceDataToTerraform item resSchema (rd_values d) in
      setData (fun d => {| rd_id := rd_id d; rd_values := values |});;
      mret diags
  end.

(** [resCreateUpdate] *)
Definition resCreateUpdate : M Dev diag.Diagnostics :=
  d ← getData;
  let '(item, metadata) := TerraformResourceDataToMikrotik resSchema d in
  numbers ← assertString (Get d "numbers");
  setData (SetId numbers);;
  m ← getDevice;
  let resUrl :=
    if decide (GetTransport m = TransportREST) then "/set" else "" in
  let url := {| Path := meta_Path metadata +:+ resUrl |} in
  err ← call (ReqSend crudPost url item) (SendRequest crudPost url item);
  match err with
  | Some err => mret (diag.FromErr (Some err))
  | None => resRead
  end.

Definition ResourceIpService : Resource Dev :=
  {| CreateContext := resCreateUpdate;
     ReadContext := resRead;
     UpdateContext := resCreateUpdate;
     DeleteContext := DefaultSystemDelete resSchema;
     Importer := ImportStateCustomContext resSchema;
     Schema_ := resSchema |}.

(** ** The intermediate states of the two operations *)

(** The filter [resRead] builds for a record and a parsed version. *)
Definition readFilter (d : ResourceData) (ver : Z) : gmap string any :=
  versionGate ver {[ "name" := Get d "numbers" ]}.

(** The state after the query of [resRead] reached the device. *)
Definition queried (st : state Dev) (ver : Z) : state Dev :=
  let query := buildReadFilter (readFilter (d st) ver) in
  {| d := d st;
     dev := (ReadItemsFiltered query "/ip/service" (dev st)).2;
     trace := (trace st ++ [ReqRead query "/ip/service"])%list |}.

Definition withData (f : ResourceData -> ResourceData) (st : state Dev)
  : state Dev :=
  {| d := f (d st); dev := dev st; trace := trace st |}.

(** The address of the write of [resCreateUpdate], and the state after
    the write reached the device, for a record whose [numbers] is the
    given string. *)
Definition writeUrl (st : state Dev) : URL :=
  {| Path := meta_Path (TerraformResourceDataToMikrotik resSchema (d st)).2
             +:+ (if decide (GetTransport (dev st) = TransportREST)
                  then "/set" else "") |}.

Definition written (st : state Dev) (numbers : string) : state Dev :=
  let item := (TerraformResourceDataToMikrotik resSchema (d st)).1 in
  {| d := SetId numbers (d st);
     dev := (SendRequest crudPost (writeUrl st) item (dev st)).2;
     trace := (trace st ++ [ReqSend crudPost (writeUrl st) item])%list |}.

End ResourceIpService.

(* ===================================================================== *)
(** * Concrete devices                                                     *)
(* ===================================================================== *)

(** A scripted remote end for the command channel: whether a session can
    be opened, and for each command what it prints and how it ends. *)
Module Scripted.
Record remote := {
  session_error : option error;
  replies : list (string * (string * option error))
}.

Fixpoint reply (cmd : string) (l : list (string * (string * option error)))
  : string * option error :=
  match l with
  | [] => ("", Some "no such command")
  | (c, r) :: l' => if (c =? cmd) then r else reply cmd l'
  end.

#[global] Instance remote_client : Importer.SshClient remote := {|
  Importer.NewSession w := (session_error w, w);
  Importer.SessionRun cmd w := (reply cmd (replies w), w);
  Importer.SessionClose w := w
|}.

(** A pattern with one group that captures an identifier: the output has
    to be [*] followed by at least one character. *)
Definition starId (out : string) : list string :=
  match out with
  | String "*" (String _ _) => [out; out]
  | _ => []
  end.

(** Candidates [a], [b] and [c] on /ip/service: [a] prints no identifier,
    [b] and [c] print one, and any other field ends with an error after
    printing nothing. *)
Definition service : remote :=
  {| session_error := None;
     replies := [
       (Importer.findCommand "/ip/service" "a", ("no such item", None));
       (Importer.findCommand "/ip/service" "b", ("*1F", None));
       (Importer.findCommand "/ip/service" "c", ("*2A", None));
       ("/export terse", ("/ip service set ssh port=22", Some "exit status 1"))
     ] |}.
End Scripted.

(** A device for the synchronizer: its transport, the items of /ip/service
    and the errors its next write or read ends with. *)
Module Bench.
Record device := {
  transport : TransportType;
  items : list MikrotikItem;
  write_error : option error;
  read_error : option error
}.

#[global] Instance device_client : Client device := {|
  GetTransport dev := transport dev;
  SendRequest _ _ _ dev := (write_error dev, dev)
|}.

Definition show (v : any) : string :=
  match v with
  | VString s => s
  | VBool true => "true"
  | VBool false => "false"
  | _ => ""
  end.

(** One clause [attribute=value] per entry of the filter. *)
Definition clauses (filter : gmap string any) : list string :=
  (fun kv => fst kv +:+ "=" +:+ show (snd kv)) <$> map_to_list filter.

Definition matches (query : list string) (item : MikrotikItem) : bool :=
  forallb (fun c =>
    existsb (fun kv => c =? (fst kv +:+ "=" +:+ snd kv)) (map_to_list item))
    query.

Definition read (query : list string) (path : string) (dev : device)
  : (list MikrotikItem + error) * device :=
  match read_error dev with
  | Some e => (inr e, dev)
  | None => (inl (filter (fun i => Is_true (matches query i)) (items dev)), dev)
  end.

Definition plain : Schema :=
  {| Type_ := TypeString; Optional := true; Required := false;
     Computed := false; Default := VNil; DiffSuppressFunc := None |}.

(** The package around a device that reported [version], with the
    version comparator of the design. *)
Definition package (version : string) : Package device := {|
  MetaResourcePath := "___path___";
  MetaId := "___id___";
  KeyDisabled := "disabled";
  KeyDynamic := "dynamic";
  KeyInvalid := "invalid";
  KeyVrf := "vrf";
  PropId _ := plain;
  PropDisabledRw := plain;
  PropDynamicRo := plain;
  PropInvalidRo := plain;
  PropVrfRw := plain;
  AlwaysPresentNotUserProvided _ _ _ _ := true;
  RouterOSVersion := version;
  parseRouterOSVersion := Version.parseVersion;
  buildReadFilter := clauses;
  ReadItemsFiltered := read;
  errorNoLongerExists := "resource no longer exists";
  MikrotikResourceDataToTerraform item _ values :=
    ([], (VString <$> item) ∪ values);
  TerraformResourceDataToMikrotik _ d :=
    (show <$> rd_values d, {| meta_Path := "/ip/service" |});
  DefaultSystemDelete _ := mret [];
  ImportStateCustomContext _ := d ← getData; mret [d]
|}.

Definition ssh1 : MikrotikItem :=
  list_to_map [(".id", "*1"); ("name", "ssh"); ("port", "22"); ("dynamic", "false")].

Definition ssh2 : MikrotikItem :=
  list_to_map [(".id", "*2"); ("name", "ssh"); ("port", "22"); ("dynamic", "true")].

(** The declared record [{numbers: "ssh", port: 22}], not yet synchronized. *)
Definition declared : ResourceData :=
  {| rd_id := ""; rd_values := list_to_map [("numbers", VString "ssh"); ("port", VInt 22)] |}.

Definition start (d : ResourceData) (dev : device) : state device :=
  {| d := d; dev := dev; trace := [] |}.

(** A device that lists the ssh service twice, once as a dynamic entry. *)
Definition twice : device :=
  {| transport := TransportREST; items := [ssh1; ssh2];
     write_error := None; read_error := None |}.

(** A device without the service. *)
Definition empty : device :=
  {| transport := TransportREST; items := [];
     write_error := None; read_error := None |}.

(** A device that rejects the next write. *)
Definition readonly : device :=
  {| transport := TransportAPI; items := [ssh1];
     write_error := Some "failure: not permitted"; read_error := None |}.
End Bench.

(* ===================================================================== *)
(** * What the operations leave behind                                     *)
(* ===================================================================== *)

(** ** The command channel *)
Section ssh_observations.
Import Importer.
Context {W : Type} {ssh : SshClient W}.
Variable FindStringSubmatch : string -> list string.

(** The remote end after the command of every candidate field ran once, in
    the order of the list. *)
Definition afterCommands (path : string) (fields : list string) (w : W) : W :=
  fold_left (fun w f => (Run (findCommand path f) w).2) fields w.

(** A candidate whose command succeeds and whose output does not give the
    whole match and one group. *)
Definition mismatch (path filter : string) (w : W) : bool :=
  match (Run (findCommand path filter) w).1 with
  | (res, None) => bool_decide (length (FindStringSubmatch res) ≠ 2)
  | (_, Some _) => false
  end.

(** How many candidates of the list are mismatches, each on the remote end
    as it is when its turn comes. *)
Fixpoint mismatches (path : string) (fields : list string) (w : W) : nat :=
  match fields with
  | [] => 0
  | f :: fs =>
      (if mismatch path f w then 1 else 0)
      + mismatches path fs (Run (findCommand path f) w).2
  end.

End ssh_observations.

(** ** The descriptor set *)
Section schema_observations.
Context {Dev : Type} {pkg : Package Dev}.

(** The keys of the map literal [resSchema], as written. *)
Definition schemaKeys : list string :=
  [ MetaResourcePath; MetaId; "address"; "certificate"; KeyDisabled;
    KeyDynamic; KeyInvalid; "max_sessions"; "name"; "numbers"; "port";
    "proto"; "tls_version"; KeyVrf ].

(** The fields whose descriptors the file writes out itself. *)
Definition ownFields : list string :=
  [ "address"; "certificate"; "max_sessions"; "name"; "numbers"; "port";
    "proto"; "tls_version" ].

(** Exactly one of [Required], [Optional] and [Computed] is set. *)
Definition oneMode (s : Schema) : bool :=
  match Required s, Optional s, Computed s with
  | true, false, false | false, true, false | false, false, true => true
  | _, _, _ => false
  end.

End schema_observations.

(** ** More devices *)
Module Lab.

(** A pattern whose group is what follows the [*], possibly nothing. *)
Definition looseId (out : string) : list string :=
  match out with
  | String "*" rest => [out; rest]
  | _ => []
  end.

(** Candidate [b] prints an identifier and candidate [c] a bare [*]. *)
Definition bare : Scripted.remote :=
  {| Scripted.session_error := None;
     Scripted.replies := [
       (Importer.findCommand "/ip/service" "b", ("*1F", None));
       (Importer.findCommand "/ip/service" "c", ("*", None))
     ] |}.

(** A device that does not answer queries. *)
Definition unreachable : Bench.device :=
  {| Bench.transport := TransportREST; Bench.items := [Bench.ssh1];
     Bench.write_error := None; Bench.read_error := Some "connection refused" |}.


(** A record that was synchronized before. *)
Definition synced : ResourceData :=
  {| rd_id := "*9"; rd_values := rd_values Bench.declared |}.

End Lab.

(* ===================================================================== *)
(** * The command channel and the identifier resolver                      *)
(* ===================================================================== *)
Section ssh_facts.
Import Importer.
Context {W : Type} {ssh : SshClient W}.
Variable FindStringSubmatch : string -> list string.

Lemma Run_cases (cmd : string) (w : W) :
  (exists err, (Run cmd w).1 = ("", Some err)) \/
  (exists out, (Run cmd w).1 = (out, None)).
Proof.
  unfold Run.
  destruct (NewSession w) as [[e|] w1]; simpl; [eauto|].
  destruct (SessionRun cmd w1) as [[b [e|]] w2]; simpl; eauto.
Qed.

(** An iteration of the loop keeps [id] when the candidate yields
    nothing and overwrites it when the candidate yields an identifier. *)
Lemma iteration_attempt (path : string) (st : loopState) (filter : string) :
  ls_id (iteration FindStringSubmatch path st filter)
    = default (ls_id st) (attempt FindStringSubmatch path filter (ls_world st)).1
  /\ ls_world (iteration FindStringSubmatch path st filter)
    = (attempt FindStringSubmatch path filter (ls_world st)).2.
Proof.
  unfold iteration, attempt.
  destruct (Run (findCommand path filter) (ls_world st)) as [[res [e|]] w1];
    simpl; [done|].
  destruct (FindStringSubmatch res) as [|a [|b [|c l]]]; simpl; done.
Qed.

Lemma default_last_cons (a x : string) (l : list string) :
  default a (last (x :: l)) = default x (last l).
Proof. rewrite last_cons. by destruct (last l). Qed.

(** The loop leaves in [id] the last identifier a candidate yielded, or
    what it held before when none did. *)
Lemma loop_last_success (path : string) (fields : list string) (st : loopState) :
  ls_id (fold_left (iteration FindStringSubmatch path) fields st)
    = default (ls_id st)
        (last (successes FindStringSubmatch path fields (ls_world st))).
Proof.
  revert st. induction fields as [|f fs IH]; intros st; [done|].
  simpl fold_left. rewrite IH.
  destruct (iteration_attempt path st f) as [-> ->].
  unfold successes. simpl attempts.
  destruct (attempt FindStringSubmatch path f (ls_world st)) as [[i|] w1]; simpl.
  - by rewrite default_last_cons.
  - done.
Qed.

(** A captured identifier is not empty: the pattern asks for an
    identifier token, by convention one that begins with [*]. *)
Hypothesis group_not_empty :
  forall out whole group, FindStringSubmatch out = [whole; group] -> group <> "".

Lemma successes_not_empty (path : string) (fields : list string) (w : W) :
  Forall (fun i => i <> "") (successes FindStringSubmatch path fields w).
Proof.
  revert w. unfold successes.
  induction fields as [|f fs IH]; intros w; simpl; [constructor|].
  destruct (attempt FindStringSubmatch path f w) as [o w1] eqn:E; simpl.
  destruct o as [i|]; simpl; [|apply IH].
  constructor; [|apply IH].
  unfold attempt in E.
  destruct (Run (findCommand path f) w) as [[res [e|]] w2]; [done|].
  destruct (FindStringSubmatch res) as [|a [|b [|c l]]] eqn:F; try done.
  injection E as <- _. eauto.
Qed.

(** C10.  Whenever [Run] returns an error, because the session could not
    be created or because the remote command failed, the text it
    returns is empty: no captured output comes with an error. *)
Theorem Run_error_empty_output (cmd : string) (w : W) (err : error) :
  (Run cmd w).1.2 = Some err -> (Run cmd w).1.1 = "".
Proof.
  intros E. destruct (Run_cases cmd w) as [[e R]|[out R]];
    rewrite R in E |- *; simpl in *; [done|discriminate].
Qed.

(** C4.  The resolver runs every candidate field in order and a
    candidate that fails (command error, or output without the pattern)
    only leaves the result to the others: with the identifiers of the
    successful candidates in iteration order, the result is the last of
    them, so the only one when exactly one succeeds, and the sentinel
    ["?"] when none succeeds.  The function is total: it returns a
    string for every input. *)
Theorem GetResourceId_last_success (w : W) (path : string) (fields : list string) :
  let ids := successes FindStringSubmatch path fields w in
  let result := (GetResourceId FindStringSubmatch w path fields).1.1 in
  (ids = [] -> result = "?") /\
  (forall id, ids = [id] -> result = id) /\
  (forall earlier id, ids = (earlier ++ [id])%list -> result = id) /\
  result = default "?" (last ids).
Proof.
  intros ids result.
  assert (R : result = default "?" (last ids)).
  { subst result ids. unfold GetResourceId.
    pose proof (loop_last_success path fields (LoopState "" w [])) as L.
    pose proof (successes_not_empty path fields w) as N.
    simpl in L.
    destruct (last (successes FindStringSubmatch path fields w)) as [i|] eqn:E;
      simpl in L.
    - apply last_Some_elem_of in E.
      rewrite Forall_forall in N. specialize (N i E).
      case_decide as D; simpl; [congruence|done].
    - case_decide as D; simpl; [done|congruence]. }
  repeat split; try done.
  - intros ->. by rewrite R.
  - intros id ->. by rewrite R.
  - intros earlier id ->. by rewrite R, last_snoc.
Qed.

End ssh_facts.

(** On the scripted remote end [/export terse] prints a line and then
    ends with a nonzero status: the line is dropped. *)
Lemma Run_error_empty_output_witness :
  (Importer.Run "/export terse" Scripted.service).1.2
    = Some "Failed to run, exit status 1"
  /\ (Importer.Run "/export terse" Scripted.service).1.1 = "".
Proof.
  split; [reflexivity|].
  apply (Run_error_empty_output "/export terse" Scripted.service
           "Failed to run, exit status 1").
  reflexivity.
Defined.

Lemma starId_group_not_empty (out whole group : string) :
  Scripted.starId out = [whole; group] -> group <> "".
Proof.
  unfold Scripted.starId.
  destruct out as [|c [|c' s]]; try done.
  - destruct c as [[] [] [] [] [] [] [] []]; done.
  - destruct c as [[] [] [] [] [] [] [] []]; try done.
    intros [= _ <-]. done.
Defined.

(** Candidates [a], [b], [c] where [a] misses and [b] and [c] succeed. *)
Lemma GetResourceId_last_success_witness :
  Importer.successes Scripted.starId "/ip/service" ["a"; "b"; "c"] Scripted.service
    = ["*1F"; "*2A"]
  /\ (Importer.GetResourceId Scripted.starId Scripted.service "/ip/service"
        ["a"; "b"; "c"]).1.1 = "*2A".
Proof.
  split; [reflexivity|].
  apply (GetResourceId_last_success Scripted.starId starId_group_not_empty
           Scripted.service "/ip/service" ["a"; "b"; "c"]) with (earlier := ["*1F"]).
  reflexivity.
Defined.

(* ===================================================================== *)
(** * The ip/service resource                                              *)
(* ===================================================================== *)
Section resource_facts.
Context {Dev : Type} {client : Client Dev} {pkg : Package Dev}.

Ltac step :=
  unfold mbind, M_bind, bind, mret, M_ret, ret, panic, getData, setData,
    getDevice, call, assertString; simpl.

(** The path descriptor is the first entry of the map literal, so the
    lookup and the type assertion of [schemaPath] succeed. *)
Lemma schemaPath_ok (st : state Dev) : schemaPath st = (Ret "/ip/service", st).
Proof.
  unfold schemaPath, resSchema.
  rewrite list_to_map_cons, lookup_insert_eq. reflexivity.
Qed.

(** [resRead], path by path. *)
Lemma resRead_cases (st : state Dev) :
  resRead st =
    match parseRouterOSVersion RouterOSVersion with
    | inr err => (Panic err, st)
    | inl ver =>
        let query := buildReadFilter (readFilter (d st) ver) in
        match (ReadItemsFiltered query "/ip/service" (dev st)).1 with
        | inr err => (Ret (diag.FromErr (Some err)), queried st ver)
        | inl [] =>
            (Ret (diag.FromErr (Some errorNoLongerExists)),
             withData (SetId "") (queried st ver))
        | inl (item :: _) =>
            let r := MikrotikResourceDataToTerraform item resSchema
                       (rd_values (d st)) in
            (Ret r.1,
             withData (fun _ => {| rd_id := GetID item Id; rd_values := r.2 |})
               (queried st ver))
        end
    end.
Proof.
  unfold resRead. step. rewrite schemaPath_ok.
  destruct (parseRouterOSVersion RouterOSVersion) as [ver|err]; step; [|done].
  unfold queried, readFilter, withData.
  destruct (ReadItemsFiltered _ "/ip/service" (dev st)) as [[[|item l]|err] dev'];
    simpl; try done.
  destruct (MikrotikResourceDataToTerraform item resSchema (rd_values (d st)));
    done.
Qed.

(** [resRead] sends the device one query at most and no write. *)
Lemma resRead_trace (st : state Dev) :
  exists rest, trace (resRead st).2 = (trace st ++ rest)%list
               /\ Forall (fun r => isWrite r = false) rest.
Proof.
  rewrite resRead_cases.
  destruct (parseRouterOSVersion RouterOSVersion) as [ver|err]; simpl.
  - exists [ReqRead (buildReadFilter (readFilter (d st) ver)) "/ip/service"].
    split; [|by repeat constructor].
    destruct (ReadItemsFiltered _ "/ip/service" (dev st)).1 as [[|item l]|err];
      done.
  - exists []. split; [by rewrite app_nil_r|constructor].
Qed.

Lemma resCreateUpdate_cases (st : state Dev) (numbers : string) :
  Get (d st) "numbers" = VString numbers ->
  resCreateUpdate st =
    let item := (TerraformResourceDataToMikrotik resSchema (d st)).1 in
    match (SendRequest crudPost (writeUrl st) item (dev st)).1 with
    | Some err => (Ret (diag.FromErr (Some err)), written st numbers)
    | None => resRead (written st numbers)
    end.
Proof.
  intros G. unfold resCreateUpdate, written, writeUrl. step.
  destruct (TerraformResourceDataToMikrotik resSchema (d st)) as [item metadata].
  rewrite G. step.
  destruct (SendRequest crudPost _ item (dev st)) as [[err|] dev']; done.
Qed.

Lemma append_empty_r (s : string) : s +:+ "" = s.
Proof.
  induction s as [|c s IH]; [done|].
  change (String c (s +:+ "") = String c s). by rewrite IH.
Qed.

(** The version gate adds the clause from 7.19 on and changes nothing
    else. *)
Lemma readFilter_dynamic (d : ResourceData) (ver : Z) :
  (readFilter d ver !! "dynamic" = Some (VString "false") <-> (463616 <= ver)%Z)
  /\ (readFilter d ver !! "dynamic" = None <-> (ver < 463616)%Z)
  /\ readFilter d ver !! "name" = Some (Get d "numbers").
Proof.
  unfold readFilter, versionGate.
  case_decide as G.
  - rewrite lookup_insert_eq, lookup_insert_ne, lookup_singleton_eq by done.
    repeat split; try done; lia.
  - rewrite lookup_singleton_ne, lookup_singleton_eq by done.
    repeat split; try done; lia.
Qed.

Lemma resRead_query (st : state Dev) (ver : Z) :
  parseRouterOSVersion RouterOSVersion = inl ver ->
  trace (resRead st).2
    = (trace st ++ [ReqRead (buildReadFilter (readFilter (d st) ver))
                      "/ip/service"])%list.
Proof.
  intros P. rewrite resRead_cases, P. simpl.
  destruct (ReadItemsFiltered _ "/ip/service" (dev st)).1 as [[|item l]|err];
    done.
Qed.

(** C1, as the code has it.  When the query returns one item or more, the
    operation adopts the identifier of the first item returned and
    translates that item into the record; its diagnostics are those of
    the translation, and the items after the first play no part. *)
Theorem resRead_adopts_first_match (st : state Dev) (ver : Z)
  (item : MikrotikItem) (rest : list MikrotikItem) :
  parseRouterOSVersion RouterOSVersion = inl ver ->
  (ReadItemsFiltered (buildReadFilter (readFilter (d st) ver)) "/ip/service"
     (dev st)).1 = inl (item :: rest) ->
  let r := MikrotikResourceDataToTerraform item resSchema (rd_values (d st)) in
  (resRead st).1 = Ret r.1
  /\ rd_id (d (resRead st).2) = GetID item Id
  /\ rd_values (d (resRead st).2) = r.2.
Proof.
  intros P R. rewrite resRead_cases, P. simpl. rewrite R. done.
Qed.

(** C3, as the code has it.  When the query returns no item, the stored
    identifier is cleared, the declared values stay as they were, and the
    operation returns the error [errorNoLongerExists] through
    [diag.FromErr]: one diagnostic of severity [Error], the severity a
    failed query has. *)
Theorem resRead_no_match (st : state Dev) (ver : Z) :
  parseRouterOSVersion RouterOSVersion = inl ver ->
  (ReadItemsFiltered (buildReadFilter (readFilter (d st) ver)) "/ip/service"
     (dev st)).1 = inl [] ->
  rd_id (d (resRead st).2) = ""
  /\ rd_values (d (resRead st).2) = rd_values (d st)
  /\ (resRead st).1
       = Ret [ {| diag.severity := diag.Error;
                  diag.Summary := errorNoLongerExists |} ].
Proof.
  intros P R. rewrite resRead_cases, P. simpl. rewrite R. done.
Qed.

(** C5.  The query of a Read is built from a filter that holds the clause
    [dynamic = "false"] exactly when the parsed version is at least
    463616, the value of 7.19; when the device reports what the
    comparator reads as "7.16" the filter is the name clause alone, and
    for "7.19" it has both clauses. *)
Theorem resRead_filter_version_gate (st : state Dev) :
  (forall ver, parseRouterOSVersion RouterOSVersion = inl ver ->
     trace (resRead st).2
       = (trace st ++ [ReqRead (buildReadFilter (readFilter (d st) ver))
                         "/ip/service"])%list
     /\ (readFilter (d st) ver !! "dynamic" = Some (VString "false")
          <-> (463616 <= ver)%Z)
     /\ (readFilter (d st) ver !! "dynamic" = None <-> (ver < 463616)%Z))
  /\ (parseRouterOSVersion RouterOSVersion = Version.parseVersion "7.16" ->
      trace (resRead st).2
        = (trace st ++ [ReqRead (buildReadFilter
                                   {[ "name" := Get (d st) "numbers" ]})
                          "/ip/service"])%list)
  /\ (parseRouterOSVersion RouterOSVersion = Version.parseVersion "7.19" ->
      trace (resRead st).2
        = (trace st ++ [ReqRead (buildReadFilter
                                   (<[ "dynamic" := VString "false" ]>
                                      {[ "name" := Get (d st) "numbers" ]}))
                          "/ip/service"])%list).
Proof.
  split; [|split].
  - intros ver P. split; [by apply resRead_query|].
    destruct (readFilter_dynamic (d st) ver) as (? & ? & _). done.
  - intros P. by rewrite (resRead_query st 462848 P).
  - intros P. by rewrite (resRead_query st 463616 P).
Qed.

(** C6.  When the version does not parse, the operation panics with the
    error of the parser, and the record, the device and the list of
    requests are as they were: no query was sent. *)
Theorem resRead_parse_failure (st : state Dev) (err : error) :
  parseRouterOSVersion RouterOSVersion = inr err ->
  resRead st = (Panic err, st).
Proof. intros P. by rewrite resRead_cases, P. Qed.

(** C7.  The resource registers one function for create and for update:
    on every state the two operations are the same computation. *)
Theorem create_is_update :
  CreateContext ResourceIpService = resCreateUpdate
  /\ UpdateContext ResourceIpService = resCreateUpdate
  /\ forall st : state Dev,
       CreateContext ResourceIpService st = UpdateContext ResourceIpService st.
Proof. done. Qed.

(** C8, as the code has it.  Create/Update stores the declared [numbers]
    as the identifier before it sends the write; when the write fails the
    operation returns the error of the write and the stored identifier is
    that [numbers] value, whatever it was before. *)
Theorem resCreateUpdate_failed_write_id (st : state Dev) (numbers : string)
  (err : error) :
  Get (d st) "numbers" = VString numbers ->
  (SendRequest crudPost (writeUrl st)
     (TerraformResourceDataToMikrotik resSchema (d st)).1 (dev st)).1 = Some err ->
  (resCreateUpdate st).1 = Ret (diag.FromErr (Some err))
  /\ rd_id (d (resCreateUpdate st).2) = numbers.
Proof.
  intros G E. rewrite (resCreateUpdate_cases st numbers G). simpl.
  by rewrite E.
Qed.

(** C9.  Create/Update sends one write, [crudPost] with the translated
    item, to the path of the metadata followed by [/set] when the
    transport is REST and to that path alone otherwise; nothing else it
    sends is a write, and when the write succeeds the operation goes on
    as [resRead] from the state the write left. *)
Theorem resCreateUpdate_write_then_read (st : state Dev) (numbers : string) :
  Get (d st) "numbers" = VString numbers ->
  let translated := TerraformResourceDataToMikrotik resSchema (d st) in
  let url := writeUrl st in
  (GetTransport (dev st) = TransportREST ->
     Path url = meta_Path translated.2 +:+ "/set")
  /\ (GetTransport (dev st) <> TransportREST ->
      Path url = meta_Path translated.2)
  /\ (exists rest,
        trace (resCreateUpdate st).2
          = (trace st ++ ReqSend crudPost url translated.1 :: rest)%list
        /\ Forall (fun r => isWrite r = false) rest)
  /\ ((SendRequest crudPost url translated.1 (dev st)).1 = None ->
      resCreateUpdate st = resRead (written st numbers)).
Proof.
  intros G translated url. repeat split.
  - intros T. subst url. unfold writeUrl. simpl. by rewrite decide_True.
  - intros T. subst url. unfold writeUrl. simpl. rewrite decide_False by done.
    apply append_empty_r.
  - rewrite (resCreateUpdate_cases st numbers G). simpl.
    fold translated. fold url.
    destruct (SendRequest crudPost url translated.1 (dev st)).1 as [err|].
    + exists []. split; [done|constructor].
    + destruct (resRead_trace (written st numbers)) as (rest & T & F).
      exists rest. split; [|done].
      rewrite T. unfold written. simpl. by rewrite <- app_assoc.
  - intros E. rewrite (resCreateUpdate_cases st numbers G). simpl.
    fold translated. fold url. by rewrite E.
Qed.

End resource_facts.

(** C2, as the code has it.  For the address field a declared value of
    [""] is not treated as equal to a live value of ["0.0.0.0/0"], nor to
    a live value of ["10.0.0.0/24"]: both discrepancies are reported.  A
    declared [""] is treated as equal to a live [""] only. *)
Theorem addressDiffSuppress_declared_empty (k : string) (d : ResourceData) :
  addressDiffSuppress k "0.0.0.0/0" "" d = false
  /\ addressDiffSuppress k "10.0.0.0/24" "" d = false
  /\ forall live, addressDiffSuppress k live "" d = true <-> live = "".
Proof.
  repeat split; try done.
  - unfold addressDiffSuppress. rewrite andb_false_r.
    intros E. by apply String.eqb_eq in E.
  - intros ->. done.
Qed.

(** The live value ["0.0.0.0/0"] against the declared [""]: reported. *)
Lemma addressDiffSuppress_counterexample :
  addressDiffSuppress "address" "0.0.0.0/0" "" Bench.declared = false.
Proof. reflexivity. Qed.

(** Version 7.16 has no dynamic clause, so the device that lists ssh twice
    answers with both entries; the record takes the identifier of the
    first and the operation reports nothing. *)
Lemma resRead_two_matches_counterexample :
  let pkg := Bench.package "7.16" in
  let st := Bench.start Bench.declared Bench.twice in
  trace (resRead st).2 = [ReqRead ["name=ssh"] "/ip/service"]
  /\ (Bench.read ["name=ssh"] "/ip/service" Bench.twice).1
       = inl [Bench.ssh1; Bench.ssh2]
  /\ (resRead st).1 = Ret []
  /\ rd_id (d (resRead st).2) = GetID Bench.ssh1 Id
  /\ GetID Bench.ssh1 Id = "*1".
Proof. vm_compute. repeat split. Qed.

Lemma resRead_adopts_first_match_witness :
  let pkg := Bench.package "7.16" in
  let st := Bench.start Bench.declared Bench.twice in
  (resRead st).1 = Ret []
  /\ rd_id (d (resRead st).2) = "*1"
  /\ rd_values (d (resRead st).2)
       = (VString <$> Bench.ssh1) ∪ rd_values Bench.declared.
Proof.
  intros pkg st.
  apply (resRead_adopts_first_match (pkg := pkg) st 462848 Bench.ssh1 [Bench.ssh2]).
  - vm_compute. reflexivity.
  - vm_compute. reflexivity.
Defined.

(** The device without the service: the operation ends with a diagnostic
    that makes the host fail it. *)
Lemma resRead_no_match_counterexample :
  let pkg := Bench.package "7.19" in
  let st := Bench.start Bench.declared Bench.empty in
  (Bench.read ["name=ssh"; "dynamic=false"] "/ip/service" Bench.empty).1 = inl []
  /\ exists diags, (resRead st).1 = Ret diags /\ diag.HasError diags = true.
Proof.
  split; [reflexivity|].
  eexists. split; vm_compute; reflexivity.
Qed.

Lemma resRead_no_match_witness :
  let pkg := Bench.package "7.19" in
  let st := Bench.start {| rd_id := "*1"; rd_values := rd_values Bench.declared |}
              Bench.empty in
  rd_id (d (resRead st).2) = ""
  /\ rd_values (d (resRead st).2) = rd_values Bench.declared
  /\ (resRead st).1
       = Ret [ {| diag.severity := diag.Error;
                  diag.Summary := "resource no longer exists" |} ].
Proof.
  intros pkg st.
  apply (resRead_no_match (pkg := pkg) st 463616).
  - vm_compute. reflexivity.
  - vm_compute. reflexivity.
Defined.

Lemma resRead_filter_version_gate_witness :
  let st := Bench.start Bench.declared Bench.twice in
  trace (resRead (pkg := Bench.package "7.16") st).2
    = [ReqRead ["name=ssh"] "/ip/service"]
  /\ trace (resRead (pkg := Bench.package "7.19") st).2
    = [ReqRead ["name=ssh"; "dynamic=false"] "/ip/service"].
Proof.
  intros st. split.
  - rewrite (proj1 (proj2 (resRead_filter_version_gate
                             (pkg := Bench.package "7.16") st)) eq_refl).
    vm_compute. reflexivity.
  - rewrite (proj2 (proj2 (resRead_filter_version_gate
                             (pkg := Bench.package "7.19") st)) eq_refl).
    vm_compute. reflexivity.
Defined.

Lemma resRead_parse_failure_witness :
  let pkg := Bench.package "seven" in
  let st := Bench.start Bench.declared Bench.twice in
  resRead st = (Panic "ParseError: seven", st).
Proof.
  intros pkg st.
  apply (resRead_parse_failure (pkg := pkg) st "ParseError: seven").
  vm_compute. reflexivity.
Defined.

(** The record had no identifier; the device rejects the write; the
    record is left with the identifier ["ssh"]. *)
Lemma resCreateUpdate_failed_write_counterexample :
  let pkg := Bench.package "7.19" in
  let st := Bench.start Bench.declared Bench.readonly in
  rd_id (d st) = ""
  /\ (resCreateUpdate st).1 = Ret (diag.FromErr (Some "failure: not permitted"))
  /\ rd_id (d (resCreateUpdate st).2) = "ssh"
  /\ rd_id (d (resCreateUpdate st).2) <> rd_id (d st).
Proof. vm_compute. repeat split. discriminate. Qed.

Lemma resCreateUpdate_failed_write_id_witness :
  let pkg := Bench.package "7.19" in
  let st := Bench.start Bench.declared Bench.readonly in
  (resCreateUpdate st).1 = Ret (diag.FromErr (Some "failure: not permitted"))
  /\ rd_id (d (resCreateUpdate st).2) = "ssh".
Proof.
  intros pkg st.
  apply (resCreateUpdate_failed_write_id (pkg := pkg) st "ssh"
           "failure: not permitted").
  - vm_compute. reflexivity.
  - vm_compute. reflexivity.
Defined.

Lemma resCreateUpdate_write_then_read_witness :
  let pkg := Bench.package "7.19" in
  let st := Bench.start Bench.declared Bench.twice in
  Path (writeUrl st) = "/ip/service/set"
  /\ resCreateUpdate st = resRead (written st "ssh").
Proof.
  intros pkg st.
  destruct (resCreateUpdate_write_then_read (pkg := pkg) st "ssh")
    as (rest & _ & _ & read).
  - vm_compute. reflexivity.
  - split.
    + rewrite rest by reflexivity. vm_compute. reflexivity.
    + apply read. vm_compute. reflexivity.
Defined.


(* ===================================================================== *)
(** * Further properties of the command channel and the resolver           *)
(* ===================================================================== *)
Section ssh_more.
Import Importer.
Context {W : Type} {ssh : SshClient W}.
Variable FindStringSubmatch : string -> list string.

Lemma iteration_world (path : string) (st : loopState) (filter : string) :
  ls_world (iteration FindStringSubmatch path st filter)
    = (Run (findCommand path filter) (ls_world st)).2.
Proof.
  unfold iteration.
  destruct (Run (findCommand path filter) (ls_world st)) as [[res [e|]] w1];
    simpl; [done|].
  by case_decide.
Qed.

Lemma iteration_log (path : string) (st : loopState) (filter : string) :
  ls_log (iteration FindStringSubmatch path st filter)
    = (ls_log st
       ++ if mismatch FindStringSubmatch path filter (ls_world st)
          then ["Id not found"] else [])%list.
Proof.
  unfold iteration, mismatch.
  destruct (Run (findCommand path filter) (ls_world st)) as [[res [e|]] w1];
    simpl; [by rewrite app_nil_r|].
  case_decide as L; case_bool_decide as B; simpl; try done.
  by rewrite app_nil_r.
Qed.

Lemma loop_world (path : string) (fields : list string) (st : loopState) :
  ls_world (fold_left (iteration FindStringSubmatch path) fields st)
    = afterCommands path fields (ls_world st).
Proof.
  revert st. induction fields as [|f fs IH]; intros st; [done|].
  simpl. rewrite IH, iteration_world. done.
Qed.

Lemma loop_log (path : string) (fields : list string) (st : loopState) :
  ls_log (fold_left (iteration FindStringSubmatch path) fields st)
    = (ls_log st
       ++ replicate (mismatches FindStringSubmatch path fields (ls_world st))
            "Id not found")%list.
Proof.
  revert st. induction fields as [|f fs IH]; intros st; simpl.
  - by rewrite app_nil_r.
  - rewrite IH, iteration_log, iteration_world, <- app_assoc. f_equal.
    by destruct (mismatch FindStringSubmatch path f (ls_world st)).
Qed.

(** The variable [id] when the loop ends. *)
Lemma loop_id (w : W) (path : string) (fields : list string) :
  ls_id (fold_left (iteration FindStringSubmatch path) fields (LoopState "" w []))
    = default "" (last (successes FindStringSubmatch path fields w)).
Proof. by rewrite loop_last_success. Qed.

Lemma GetResourceId_result (w : W) (path : string) (fields : list string) :
  (GetResourceId FindStringSubmatch w path fields).1.1
    = if decide (default "" (last (successes FindStringSubmatch path fields w))
                 = "")
      then "?"
      else default "" (last (successes FindStringSubmatch path fields w)).
Proof. unfold GetResourceId. rewrite loop_id. by case_decide. Qed.

(** X1.  Whatever the pattern captures, the resolver never returns the
    empty string and never invents an identifier: its result is the
    sentinel ["?"] or an identifier that one of the candidates yielded. *)
Theorem GetResourceId_sentinel_or_captured (w : W) (path : string)
  (fields : list string) :
  let result := (GetResourceId FindStringSubmatch w path fields).1.1 in
  result <> ""
  /\ (result = "?" \/ result ∈ successes FindStringSubmatch path fields w).
Proof.
  simpl. unfold GetResourceId. pose proof (loop_id w path fields) as L.
  case_decide as D; simpl; [split; [done|by left]|].
  split; [done|]. right.
  destruct (last (successes FindStringSubmatch path fields w)) as [i|] eqn:E;
    simpl in L; [|congruence].
  rewrite L. by apply last_Some_elem_of.
Qed.

(** X2.  The resolver has no early exit: the command of every candidate
    field runs exactly once, in the order of the list, whether earlier
    candidates failed or succeeded.  The remote end it leaves is the one
    these runs leave. *)
Theorem GetResourceId_runs_every_candidate (w : W) (path : string)
  (fields : list string) :
  (GetResourceId FindStringSubmatch w path fields).1.2
    = afterCommands path fields w.
Proof.
  unfold GetResourceId. pose proof (loop_world path fields (LoopState "" w [])) as L.
  by case_decide.
Qed.

(** X3.  Without any assumption on the pattern: the result is decided by
    the last candidate that succeeded alone.  When that candidate captured
    the empty string the result is the sentinel ["?"], also when earlier
    candidates had yielded identifiers. *)
Theorem GetResourceId_empty_capture (w : W) (path : string)
  (fields : list string) :
  let ids := successes FindStringSubmatch path fields w in
  let result := (GetResourceId FindStringSubmatch w path fields).1.1 in
  result = match last ids with
           | Some id => if decide (id = "") then "?" else id
           | None => "?"
           end
  /\ (forall earlier, ids = (earlier ++ [""])%list -> result = "?").
Proof.
  simpl. rewrite GetResourceId_result. split.
  - destruct (last (successes FindStringSubmatch path fields w)) as [i|];
      simpl; [|done].
    by case_decide.
  - intros earlier ->. rewrite last_snoc. done.
Qed.

(** X4.  The log the resolver leaves: one line "Id not found" for every
    candidate whose command succeeded with output that does not match,
    one more when the loop ends with an empty [id], and nothing else.  A
    candidate whose command fails is skipped without a line. *)
Theorem GetResourceId_log (w : W) (path : string) (fields : list string) :
  let id := default "" (last (successes FindStringSubmatch path fields w)) in
  (GetResourceId FindStringSubmatch w path fields).2
    = replicate (mismatches FindStringSubmatch path fields w
                 + if decide (id = "") then 1 else 0) "Id not found".
Proof.
  simpl. unfold GetResourceId.
  pose proof (loop_id w path fields) as L.
  pose proof (loop_log path fields (LoopState "" w [])) as G.
  simpl in G. rewrite <- L.
  case_decide as D; simpl; rewrite G.
  - by rewrite replicate_add.
  - by rewrite Nat.add_0_r.
Qed.

(** X5.  Candidates are resolved left to right and a later success
    overrides the whole prefix: when some candidate of the second list
    succeeds, resolving the two lists one after the other gives what the
    second list gives on the remote end the first one left. *)
Theorem GetResourceId_app (w : W) (path : string) (first second : list string) :
  successes FindStringSubmatch path second (afterCommands path first w) <> [] ->
  (GetResourceId FindStringSubmatch w path (first ++ second)%list).1.1
    = (GetResourceId FindStringSubmatch (afterCommands path first w) path
         second).1.1.
Proof.
  intros N.
  assert (E : ls_id (fold_left (iteration FindStringSubmatch path)
                       (first ++ second)%list (LoopState "" w []))
              = ls_id (fold_left (iteration FindStringSubmatch path) second
                         (LoopState "" (afterCommands path first w) []))).
  { rewrite fold_left_app, !loop_last_success, loop_world. simpl.
    destruct (last (successes FindStringSubmatch path second
                      (afterCommands path first w))) as [i|] eqn:L; [done|].
    by apply last_None in L. }
  unfold GetResourceId. rewrite E. by repeat case_decide.
Qed.

(** X6.  A session that was opened is closed, whether the command
    succeeded or failed: the remote end after [Run] is the one
    [session.Close] leaves after the command. *)
Theorem Run_closes_session (cmd : string) (w w1 : W) :
  NewSession w = (None, w1) ->
  (Run cmd w).2 = SessionClose (SessionRun cmd w1).2.
Proof.
  intros N. unfold Run. rewrite N.
  by destruct (SessionRun cmd w1) as [[b [e|]] w2].
Qed.

(** X7.  [Run] returns no error exactly when the session could be created
    and the command ended without error, and then its text is what the
    command wrote to standard output, unchanged. *)
Theorem Run_success (cmd : string) (w : W) :
  ((Run cmd w).1.2 = None
   <-> (NewSession w).1 = None
       /\ (SessionRun cmd (NewSession w).2).1.2 = None)
  /\ ((Run cmd w).1.2 = None ->
      (Run cmd w).1.1 = (SessionRun cmd (NewSession w).2).1.1).
Proof.
  unfold Run.
  destruct (NewSession w) as [[e|] w1]; simpl.
  - split; [|done]. split; [done|]. by intros [? _].
  - destruct (SessionRun cmd w1) as [[b [e|]] w2]; simpl.
    + split; [|done]. split; [done|]. by intros [_ ?].
    + done.
Qed.

End ssh_more.

Lemma GetResourceId_empty_capture_witness :
  Importer.successes Lab.looseId "/ip/service" ["b"; "c"] Lab.bare = ["1F"; ""]
  /\ (Importer.GetResourceId Lab.looseId Lab.bare "/ip/service" ["b"; "c"]).1.1
     = "?".
Proof.
  split; [reflexivity|].
  apply (proj2 (GetResourceId_empty_capture Lab.looseId Lab.bare "/ip/service"
                  ["b"; "c"]) ["1F"]).
  reflexivity.
Defined.

Lemma GetResourceId_app_witness :
  Importer.successes Scripted.starId "/ip/service" ["c"]
    (afterCommands "/ip/service" ["a"; "b"] Scripted.service) = ["*2A"]
  /\ (Importer.GetResourceId Scripted.starId Scripted.service "/ip/service"
        (["a"; "b"] ++ ["c"])%list).1.1
     = (Importer.GetResourceId Scripted.starId
          (afterCommands "/ip/service" ["a"; "b"] Scripted.service)
          "/ip/service" ["c"]).1.1.
Proof.
  split; [reflexivity|].
  apply (GetResourceId_app Scripted.starId Scripted.service "/ip/service"
           ["a"; "b"] ["c"]).
  vm_compute. discriminate.
Defined.

(** The command fails and the session is closed all the same. *)
Lemma Run_closes_session_witness :
  (Importer.Run "/export terse" Scripted.service).1.2
    = Some "Failed to run, exit status 1"
  /\ (Importer.Run "/export terse" Scripted.service).2
     = Importer.SessionClose
         (Importer.SessionRun "/export terse" Scripted.service).2.
Proof.
  split; [reflexivity|].
  apply (Run_closes_session "/export terse" Scripted.service Scripted.service).
  reflexivity.
Defined.

(* ===================================================================== *)
(** * Further properties of the ip/service resource                        *)
(* ===================================================================== *)
Section resource_more.
Context {Dev : Type} {client : Client Dev} {pkg : Package Dev}.

(** Storing an identifier does not change what [d.Get] reads. *)
Lemma readFilter_SetId (v : string) (d : ResourceData) (ver : Z) :
  readFilter (SetId v d) ver = readFilter d ver.
Proof. reflexivity. Qed.

(** X8.  The suppression predicate of the address field is string
    equality and nothing more: for every key, record and pair of values it
    suppresses the difference exactly when the live and the declared value
    are the same string.  Its special case for a live [""] against a
    declared ["0.0.0.0/0"] changes no result. *)
Theorem addressDiffSuppress_is_equality (k oldValue newValue : string)
  (d : ResourceData) :
  addressDiffSuppress k oldValue newValue d = true <-> oldValue = newValue.
Proof.
  unfold addressDiffSuppress.
  destruct ((oldValue =? "") && (newValue =? "0.0.0.0/0")) eqn:E.
  - apply andb_true_iff in E as [O N].
    apply String.eqb_eq in O, N. subst. done.
  - apply String.eqb_eq.
Qed.


(** X10.  When the query itself fails, the operation returns the error of
    the query as its diagnostic and leaves the record as it was: the
    stored identifier and the declared values are untouched. *)
Theorem resRead_query_error (st : state Dev) (ver : Z) (err : error) :
  parseRouterOSVersion RouterOSVersion = inl ver ->
  (ReadItemsFiltered (buildReadFilter (readFilter (d st) ver)) "/ip/service"
     (dev st)).1 = inr err ->
  (resRead st).1 = Ret (diag.FromErr (Some err))
  /\ d (resRead st).2 = d st.
Proof.
  intros P R. rewrite resRead_cases, P. simpl. by rewrite R.
Qed.


(** X12.  A Read never uses the stored identifier: two records that differ
    in the identifier only lead to the same outcome, the same request,
    the same device state and the same declared values, and when the
    query succeeds to the same stored identifier as well. *)
Theorem resRead_ignores_stored_id (st : state Dev) (v : string) :
  let st' := withData (SetId v) st in
  (resRead st').1 = (resRead st).1
  /\ trace (resRead st').2 = trace (resRead st).2
  /\ dev (resRead st').2 = dev (resRead st).2
  /\ rd_values (d (resRead st').2) = rd_values (d (resRead st).2)
  /\ (forall ver items,
        parseRouterOSVersion RouterOSVersion = inl ver ->
        (ReadItemsFiltered (buildReadFilter (readFilter (d st) ver))
           "/ip/service" (dev st)).1 = inl items ->
        d (resRead st').2 = d (resRead st).2).
Proof.
  intros st'. subst st'. rewrite !resRead_cases.
  destruct (parseRouterOSVersion RouterOSVersion) as [ver|err]; simpl;
    [|repeat split; done].
  unfold queried, withData. simpl. rewrite readFilter_SetId.
  destruct (ReadItemsFiltered _ "/ip/service" (dev st)).1
    as [[|item l]|err] eqn:R; simpl; repeat split; try done.
  intros ver' items [= <-]. rewrite R. done.
Qed.


(** X14.  After a failed write no Read is attempted: the write is the only
    request of the operation, the declared values are as they were and
    the device is in the state the write left. *)
Theorem resCreateUpdate_failed_write_no_read (st : state Dev)
  (numbers : string) (err : error) :
  let item := (TerraformResourceDataToMikrotik resSchema (d st)).1 in
  Get (d st) "numbers" = VString numbers ->
  (SendRequest crudPost (writeUrl st) item (dev st)).1 = Some err ->
  trace (resCreateUpdate st).2
    = (trace st ++ [ReqSend crudPost (writeUrl st) item])%list
  /\ rd_values (d (resCreateUpdate st).2) = rd_values (d st)
  /\ dev (resCreateUpdate st).2
     = (SendRequest crudPost (writeUrl st) item (dev st)).2.
Proof.
  intros item G E. rewrite (resCreateUpdate_cases st numbers G). simpl.
  fold item. by rewrite E.
Qed.

(** X15.  The version is parsed after the write only: on a device whose
    version does not parse, Create/Update still sends the write and
    stores the declared [numbers] as identifier, and panics afterwards
    without having sent a query. *)
Theorem resCreateUpdate_write_then_panic (st : state Dev) (numbers : string)
  (e : error) :
  let item := (TerraformResourceDataToMikrotik resSchema (d st)).1 in
  Get (d st) "numbers" = VString numbers ->
  (SendRequest crudPost (writeUrl st) item (dev st)).1 = None ->
  parseRouterOSVersion RouterOSVersion = inr e ->
  (resCreateUpdate st).1 = Panic e
  /\ trace (resCreateUpdate st).2
     = (trace st ++ [ReqSend crudPost (writeUrl st) item])%list
  /\ rd_id (d (resCreateUpdate st).2) = numbers.
Proof.
  intros item G E P. rewrite (resCreateUpdate_cases st numbers G). simpl.
  fold item. rewrite E, resRead_cases, P. done.
Qed.

(** X16.  After a successful write the operation sends one query, built
    from the declared [numbers], to the device as the write left it; when
    the query returns items, the identifier stored before the write is
    replaced by the identifier of the first item, and the diagnostics are
    those of the translation of that item. *)
Theorem resCreateUpdate_adopts_device_id (st : state Dev) (numbers : string)
  (ver : Z) (found : MikrotikItem) (rest : list MikrotikItem) :
  let item := (TerraformResourceDataToMikrotik resSchema (d st)).1 in
  let query := buildReadFilter (readFilter (d st) ver) in
  Get (d st) "numbers" = VString numbers ->
  (SendRequest crudPost (writeUrl st) item (dev st)).1 = None ->
  parseRouterOSVersion RouterOSVersion = inl ver ->
  (ReadItemsFiltered query "/ip/service" (dev (written st numbers))).1
    = inl (found :: rest) ->
  (resCreateUpdate st).1
    = Ret (MikrotikResourceDataToTerraform found resSchema (rd_values (d st))).1
  /\ rd_id (d (resCreateUpdate st).2) = GetID found Id
  /\ trace (resCreateUpdate st).2
     = (trace st ++ [ReqSend crudPost (writeUrl st) item;
                     ReqRead query "/ip/service"])%list.
Proof.
  intros item query G E P R. rewrite (resCreateUpdate_cases st numbers G).
  cbv zeta. fold item. rewrite E, resRead_cases, P. cbv beta iota zeta.
  change (d (written st numbers)) with (SetId numbers (d st)).
  rewrite readFilter_SetId. fold query. rewrite R. simpl.
  repeat split. by rewrite <- app_assoc.
Qed.

(** X17.  After a successful write whose following query returns no item,
    the operation ends like a Read that finds nothing: the stored
    identifier is empty, not the declared [numbers], and the result is
    the error [errorNoLongerExists]. *)
Theorem resCreateUpdate_then_not_found (st : state Dev) (numbers : string)
  (ver : Z) :
  let item := (TerraformResourceDataToMikrotik resSchema (d st)).1 in
  let query := buildReadFilter (readFilter (d st) ver) in
  Get (d st) "numbers" = VString numbers ->
  (SendRequest crudPost (writeUrl st) item (dev st)).1 = None ->
  parseRouterOSVersion RouterOSVersion = inl ver ->
  (ReadItemsFiltered query "/ip/service" (dev (written st numbers))).1
    = inl [] ->
  (resCreateUpdate st).1 = Ret (diag.FromErr (Some errorNoLongerExists))
  /\ rd_id (d (resCreateUpdate st).2) = "".
Proof.
  intros item query G E P R. rewrite (resCreateUpdate_cases st numbers G).
  cbv zeta. fold item. rewrite E, resRead_cases, P. cbv beta iota zeta.
  change (d (written st numbers)) with (SetId numbers (d st)).
  rewrite readFilter_SetId. fold query. rewrite R. done.
Qed.

End resource_more.

Section schema_more.
Context {Dev : Type} {pkg : Package Dev}.

(** X18.  With the keys of the map literal distinct, as the compiler
    requires, no descriptor is shadowed: the set has all fourteen
    entries, every field the file describes itself is found under its
    name with exactly one of required, optional and computed set, and
    the required ones are [numbers] and [port]. *)
Theorem resSchema_own_fields :
  NoDup schemaKeys ->
  size resSchema = 14
  /\ forall name, name ∈ ownFields ->
       exists s, resSchema !! name = Some s
                 /\ oneMode s = true
                 /\ (Required s = true <-> name = "numbers" \/ name = "port").
Proof.
  intros N. split.
  - unfold resSchema. by rewrite map_size_list_to_map.
  - intros name I. unfold ownFields in I.
    repeat (apply elem_of_cons in I as [->|I]); [..|by apply elem_of_nil in I];
      (eexists; split;
       [ apply elem_of_list_to_map_1; [exact N|];
         repeat first [ apply list_elem_of_here | apply list_elem_of_further ]
       | simpl; split; [done|];
         split; [intros ?; first [discriminate | by left | by right]
                |intros [?|?]; first [discriminate | done]] ]).
Qed.

End schema_more.

Lemma resSchema_own_fields_witness :
  size (resSchema (pkg := Bench.package "7.19")) = 14.
Proof.
  apply (resSchema_own_fields (pkg := Bench.package "7.19")).
  apply (bool_decide_unpack _). vm_compute. exact I.
Defined.

(** The query fails on a record that was synchronized before. *)
Lemma resRead_query_error_witness :
  let pkg := Bench.package "7.19" in
  let st := Bench.start Lab.synced Lab.unreachable in
  (resRead st).1 = Ret (diag.FromErr (Some "connection refused"))
  /\ d (resRead st).2 = Lab.synced.
Proof.
  intros pkg st.
  apply (resRead_query_error (pkg := pkg) st 463616 "connection refused").
  - vm_compute. reflexivity.
  - vm_compute. reflexivity.
Defined.



Lemma resCreateUpdate_failed_write_no_read_witness :
  let pkg := Bench.package "7.19" in
  let st := Bench.start Bench.declared Bench.readonly in
  length (trace (resCreateUpdate st).2) = 1
  /\ rd_values (d (resCreateUpdate st).2) = rd_values Bench.declared.
Proof.
  intros pkg st.
  destruct (resCreateUpdate_failed_write_no_read (pkg := pkg) st "ssh"
              "failure: not permitted") as (T & V & _).
  - vm_compute. reflexivity.
  - vm_compute. reflexivity.
  - split; [by rewrite T|exact V].
Defined.

(** The device accepts the write and reports a version that does not
    parse. *)
Lemma resCreateUpdate_write_then_panic_witness :
  let pkg := Bench.package "seven" in
  let st := Bench.start Bench.declared Bench.twice in
  (resCreateUpdate st).1 = Panic "ParseError: seven"
  /\ length (trace (resCreateUpdate st).2) = 1
  /\ rd_id (d (resCreateUpdate st).2) = "ssh".
Proof.
  intros pkg st.
  destruct (resCreateUpdate_write_then_panic (pkg := pkg) st "ssh"
              "ParseError: seven") as (O & T & N).
  - vm_compute. reflexivity.
  - vm_compute. reflexivity.
  - vm_compute. reflexivity.
  - split; [exact O|]. split; [by rewrite T|exact N].
Defined.

Lemma resCreateUpdate_adopts_device_id_witness :
  let pkg := Bench.package "7.19" in
  let st := Bench.start Bench.declared Bench.twice in
  rd_id (d (resCreateUpdate st).2) = "*1"
  /\ length (trace (resCreateUpdate st).2) = 2.
Proof.
  intros pkg st.
  destruct (resCreateUpdate_adopts_device_id (pkg := pkg) st "ssh" 463616
              Bench.ssh1 []) as (_ & N & T).
  - vm_compute. reflexivity.
  - vm_compute. reflexivity.
  - vm_compute. reflexivity.
  - vm_compute. reflexivity.
  - split; [by rewrite N|by rewrite T].
Defined.

Lemma resCreateUpdate_then_not_found_witness :
  let pkg := Bench.package "7.19" in
  let st := Bench.start Bench.declared Bench.empty in
  (resCreateUpdate st).1
    = Ret (diag.FromErr (Some "resource no longer exists"))
  /\ rd_id (d (resCreateUpdate st).2) = "".
Proof.
  intros pkg st.
  apply (resCreateUpdate_then_not_found (pkg := pkg) st "ssh" 463616).
  - vm_compute. reflexivity.
  - vm_compute. reflexivity.
  - vm_compute. reflexivity.
  - vm_compute. reflexivity.
Defined.
